(** * Downloads dashboard: aggregation, period-over-period delta, charts

    A shallow embedding of [streamlit_app.py].

    - The warehouse table [streamlit.streamlit.pypi_downloads] is a list of
      rows; the two SQL statements of [monthly_downloads] and
      [weekly_downloads] are evaluated clause by clause (WHERE, GROUP BY with
      SUM, ORDER BY).
    - A data frame is the list of its rows, in index order.
    - A float64 column holds exact rationals, the two infinities or NaN:
      rounding is not modelled, division by zero and NaN are.
    - The page script [main] runs in a small monad that records the elements
      put on the page and lets [st.stop()] end the run. A widget is the
      element it puts on the page and the value the user has given it.

    Columns of the table are taken to be filled (no NULL), sums to stay
    within int64, and the data frame of the query result to hold plain
    int64 and float64 columns. The icon, title and text that the module
    writes before it calls [main] are left out. *)

From Stdlib Require Import ZArith QArith Lia Lqa String Ascii Sorted Permutation.
From Stdlib Require Import OrdersEx.
From stdpp Require Import base option list strings gmap sorting.

Local Open Scope string_scope.
Local Open Scope Z_scope.

(** ** Calendar dates

    A DATE is the number of days since 1970-01-01 (proleptic Gregorian
    calendar), so that the warehouse's comparison of dates is the order of
    [Z]. *)

Module Calendar.

Definition DATE := Z.

(** Days since the epoch of the civil date [y]-[m]-[d]. *)
Definition days_from_civil (y m d : Z) : DATE :=
  let y' := if m <=? 2 then y - 1 else y in
  let era := y' / 400 in
  let yoe := y' - era * 400 in
  let mp := if 2 <? m then m - 3 else m + 9 in
  let doy := (153 * mp + 2) / 5 + d - 1 in
  let doe := yoe * 365 + yoe / 4 - yoe / 100 + doy in
  era * 146097 + doe - 719468.

(** The civil date (year, month, day) of a day number. *)
Definition civil_from_days (z : DATE) : Z * Z * Z :=
  let z' := z + 719468 in
  let era := z' / 146097 in
  let doe := z' - era * 146097 in
  let yoe := (doe - doe / 1460 + doe / 36524 - doe / 146096) / 365 in
  let y := yoe + era * 400 in
  let doy := doe - (365 * yoe + yoe / 4 - yoe / 100) in
  let mp := (5 * doy + 2) / 153 in
  let d := doy - (153 * mp + 2) / 5 + 1 in
  let m := if mp <? 10 then mp + 3 else mp - 9 in
  ((if m <=? 2 then y + 1 else y), m, d).

(** Day of the week, 0 = Sunday; 1970-01-01 was a Thursday. *)
Definition weekday (z : DATE) : Z := (z + 4) mod 7.

Inductive granularity := MONTH | WEEK.

(** [date_trunc(date, MONTH)] is the first day of the month,
    [date_trunc(date, WEEK)] the preceding Sunday. *)
Definition date_trunc (z : DATE) (g : granularity) : DATE :=
  match g with
  | MONTH => let '(y, m, _) := civil_from_days z in days_from_civil y m 1
  | WEEK => z - weekday z
  end.

End Calendar.
Export Calendar.

(** ** float64 values *)

Inductive float64 :=
| Fin (q : Q)
| PInf
| NInf
| NaN.

(** [x / y] of an int64 [x] by a float64 column entry that is an integer or
    missing ([None], the NaN that [shift] puts in front of a group). *)
Definition truediv (x : Z) (y : option Z) : float64 :=
  match y with
  | None => NaN
  | Some y =>
      if y =? 0 then
        if 0 <? x then PInf else if x <? 0 then NInf else NaN
      else Fin (Qred (inject_Z x / inject_Z y))
  end.

Definition fsub (f : float64) (c : Q) : float64 :=
  match f with
  | Fin q => Fin (Qred (q - c))
  | PInf => PInf
  | NInf => NInf
  | NaN => NaN
  end.

Definition fillna (v : Q) (f : float64) : float64 :=
  match f with NaN => Fin v | _ => f end.

(** [a < b] on float64: false as soon as one side is NaN. *)
Definition flt (a b : float64) : bool :=
  match a, b with
  | NaN, _ | _, NaN => false
  | _, NInf => false
  | NInf, _ => true
  | PInf, _ => false
  | Fin _, PInf => true
  | Fin p, Fin q => match (p ?= q)%Q with Lt => true | _ => false end
  end.

(** [a <= b] on float64: false as soon as one side is NaN. *)
Definition fle (a b : float64) : bool :=
  match a, b with
  | NaN, _ | _, NaN => false
  | NInf, _ => true
  | _, NInf => false
  | _, PInf => true
  | PInf, Fin _ => false
  | Fin p, Fin q => match (p ?= q)%Q with Gt => false | _ => true end
  end.

(** ** Tables and data frames *)

(** A row of [pypi_downloads], and of the result of the SQL statement, which
    has the same three columns. *)
Record Row := { date : DATE; project : string; downloads : Z }.

(** A row of the data frame the Aggregator returns: the three columns of the
    query result and the [delta] column. *)
Record DownloadRecord := { row :> Row; delta : float64 }.

Definition key (r : Row) : DATE * string := (date r, project r).

(** ** The SQL statement

    SELECT date_trunc(date, [trunc_to]) as date, project,
           SUM(downloads) as downloads
    FROM streamlit.streamlit.pypi_downloads
    WHERE date >= '[where_date_ge]' AND project NOT IN ([where_project_not_in])
    GROUP BY 1,2
    ORDER BY 1,2 ASC *)
Record statement := {
  trunc_to : granularity;
  where_date_ge : DATE;
  where_project_not_in : list string
}.

(** WHERE date >= start AND project NOT IN (...) *)
Definition where_clause (q : statement) (r : Row) : bool :=
  (where_date_ge q <=? date r) &&
  negb (existsb (String.eqb (project r)) (where_project_not_in q)).

(** The first two SELECT expressions, evaluated on a row of the table. *)
Definition select_key (q : statement) (r : Row) : Row :=
  {| date := date_trunc (date r) (trunc_to q);
     project := project r;
     downloads := downloads r |}.

(** GROUP BY 1,2 with SUM(downloads): one entry per (date, project). *)
Fixpoint group_by_sum (rows : list Row) : gmap (DATE * string) Z :=
  match rows with
  | [] => ∅
  | r :: rows' =>
      let m := group_by_sum rows' in
      <[key r := downloads r + default 0 (m !! key r)]> m
  end.

(** SUM(downloads) over the rows of a group. *)
Definition sum_downloads (rows : list Row) : Z :=
  foldr (λ r acc, downloads r + acc) 0 rows.

Definition group_rows (m : gmap (DATE * string) Z) : list Row :=
  (λ kv, {| date := kv.1.1; project := kv.1.2; downloads := kv.2 |})
    <$> map_to_list m.

(** ORDER BY 1,2 ASC: by date, then by project; strings compare by their
    bytes. *)
Definition string_le (s1 s2 : string) : Prop := String.leb s1 s2 = true.

Definition row_le (r1 r2 : Row) : Prop :=
  date r1 < date r2 ∨ (date r1 = date r2 ∧ string_le (project r1) (project r2)).

#[global] Instance string_le_dec s1 s2 : Decision (string_le s1 s2).
Proof. unfold string_le. apply _. Defined.

#[global] Instance row_le_dec r1 r2 : Decision (row_le r1 r2).
Proof. unfold row_le. apply _. Defined.

Definition order_by (rows : list Row) : list Row := merge_sort row_le rows.

Definition run_statement (q : statement) (tbl : list Row) : list Row :=
  order_by (group_rows (group_by_sum
    (select_key q <$> List.filter (where_clause q) tbl))).

(** Modelled from the spec: [data_sources.big_query] is not among the source
    files. Its [get_data_frame_from_raw_sql] sends the SQL text to the
    warehouse and returns the tabular result, columns (date, project,
    downloads), as a data frame; [tbl] is the content of the table at the
    time of the call. *)
Definition get_data_frame_from_raw_sql (tbl : list Row) (q : statement)
  : list Row :=
  run_statement q tbl.

(** ** The delta column *)

(** [df.groupby(["project"])["downloads"].shift(1)]: next to each row, the
    downloads of the previous row of the same project, and nothing (NaN) at
    the first row of a project. [last] holds, per project, the downloads of
    the latest row seen. *)
Fixpoint groupby_shift (last : gmap string Z) (df : list Row)
  : list (option Z) :=
  match df with
  | [] => []
  | r :: df' =>
      last !! project r
        :: groupby_shift (<[project r := downloads r]> last) df'
  end.

(** [df.groupby(["project"])["downloads"].pct_change()]:
    the column divided by the shifted column, minus one. *)
Definition groupby_pct_change (df : list Row) : list float64 :=
  zip_with (λ r prev, fsub (truediv (downloads r) prev) 1) df
    (groupby_shift ∅ df).

(** [df["delta"] = col] *)
Definition assign_delta (df : list Row) (col : list float64)
  : list DownloadRecord :=
  zip_with Build_DownloadRecord df col.

Definition monthly_sql (start_date : DATE) : statement :=
  {| trunc_to := MONTH;
     where_date_ge := start_date;
     where_project_not_in := ["shiny"] |}.

Definition weekly_sql (start_date : DATE) : statement :=
  {| trunc_to := WEEK;
     where_date_ge := start_date;
     where_project_not_in := ["shiny"] |}.

Definition monthly_downloads (tbl : list Row) (start_date : DATE)
  : list DownloadRecord :=
  let df := get_data_frame_from_raw_sql tbl (monthly_sql start_date) in
  assign_delta df (fillna 0 <$> groupby_pct_change df).

Definition weekly_downloads (tbl : list Row) (start_date : DATE)
  : list DownloadRecord :=
  let df := get_data_frame_from_raw_sql tbl (weekly_sql start_date) in
  assign_delta df (fillna 0 <$> groupby_pct_change df).

(** The Aggregator at a granularity. *)
Definition Aggregator (g : granularity) : list Row → DATE → list DownloadRecord :=
  match g with
  | MONTH => monthly_downloads
  | WEEK => weekly_downloads
  end.

(** The rows of one project, in the order of the data frame. *)
Definition series (p : string) (df : list DownloadRecord)
  : list DownloadRecord :=
  filter (λ r : DownloadRecord, project r = p) df.

(** [downloads[t] / downloads[t-1] - 1] in float64 arithmetic. *)
Definition pct_formula (cur prev : Z) : float64 :=
  fsub (truediv cur (Some prev)) 1.

(** The delta column of a single series computed on its own: [prev] is the
    downloads of the bucket before the series, if there is one. *)
Fixpoint series_delta (prev : option Z) (ds : list Z) : list float64 :=
  match ds with
  | [] => []
  | d :: ds' =>
      fillna 0 (fsub (truediv d prev) 1) :: series_delta (Some d) ds'
  end.

(** The SQL statement of the Aggregator at a granularity. *)
Definition sql_of (g : granularity) (start_date : DATE) : statement :=
  match g with
  | MONTH => monthly_sql start_date
  | WEEK => weekly_sql start_date
  end.

(** ** Chart objects *)

Module Chart.

(** Expressions of the chart grammar, as far as the page uses them. *)
Inductive expr :=
| EDatum (field : string)
| ENum (q : Q)
| EStr (s : string)
| ELt (a b : expr)
| ECond (c a b : expr).

Inductive value :=
| VNum (f : float64)
| VStr (s : string)
| VBool (b : bool)
| VDate (d : DATE).

Inductive selection :=
| selection_single (fields : list string) (nearest : bool) (on empty : string)
| selection_interval (encodings : list string) (empty : string)
| selection_multi (encodings : list string).

Inductive point_opt := point_none | point_true | point_transparent.

Inductive mark :=
| mark_line (point : point_opt)
| mark_circle (size : Z)
| mark_rule (opacity : Z)
| mark_bar.

Inductive scale := scale_default | scale_none | scale_type (t : string).

(** One channel of an encoding: the field, its type after the colon of the
    shorthand, the scale and the number format. *)
Record channel := {
  field : string;
  type : option string;
  scale_of : scale;
  format : option string
}.

Definition shorthand (f : string) : channel :=
  {| field := f; type := None; scale_of := scale_default; format := None |}.

Inductive transform :=
| transform_calculate (as_ : string) (e : expr)
| transform_filter (s : selection).

(** A single view. [encoding] lists the channels in the order they were
    given; the tooltip channel has one entry per field shown. *)
Record view := {
  data : list DownloadRecord;
  mark_of : option mark;
  encoding : list (string * channel);
  transforms : list transform;
  selections : list selection;
  width : option Z
}.

Inductive chart :=
| Layer (views : list view) (interactive : bool)
| VConcat (views : list view).

Definition Chart (source : list DownloadRecord) : view :=
  {| data := source; mark_of := None; encoding := []; transforms := [];
     selections := []; width := None |}.

Definition with_mark (m : mark) (v : view) : view :=
  {| data := data v; mark_of := Some m; encoding := encoding v;
     transforms := transforms v; selections := selections v;
     width := width v |}.

(** [.encode(ch=c)]: a channel given again replaces the earlier one. *)
Definition encode (ch : string) (cs : list channel) (v : view) : view :=
  {| data := data v; mark_of := mark_of v;
     encoding := List.filter (λ e, negb (String.eqb e.1 ch)) (encoding v)
                   ++ ((λ c, (ch, c)) <$> cs);
     transforms := transforms v; selections := selections v;
     width := width v |}.

Definition add_transform (t : transform) (v : view) : view :=
  {| data := data v; mark_of := mark_of v; encoding := encoding v;
     transforms := transforms v ++ [t]; selections := selections v;
     width := width v |}.

Definition add_selection (s : selection) (v : view) : view :=
  {| data := data v; mark_of := mark_of v; encoding := encoding v;
     transforms := transforms v; selections := selections v ++ [s];
     width := width v |}.

Definition properties_width (w : Z) (v : view) : view :=
  {| data := data v; mark_of := mark_of v; encoding := encoding v;
     transforms := transforms v; selections := selections v;
     width := Some w |}.

(** *** Evaluation of an expression on a record *)

Definition column (r : DownloadRecord) (f : string) : option value :=
  if String.eqb f "date" then Some (VDate (date r))
  else if String.eqb f "project" then Some (VStr (project r))
  else if String.eqb f "downloads" then Some (VNum (Fin (inject_Z (downloads r))))
  else if String.eqb f "delta" then Some (VNum (delta r))
  else None.

(** A datum: the columns of the record and the fields calculated so far,
    the latest first. *)
Definition datum_field (calc : list (string * value)) (r : DownloadRecord)
    (f : string) : option value :=
  match List.find (λ e, String.eqb e.1 f) calc with
  | Some e => Some e.2
  | None => column r f
  end.

Fixpoint eval (calc : list (string * value)) (r : DownloadRecord) (e : expr)
  : option value :=
  match e with
  | EDatum f => datum_field calc r f
  | ENum q => Some (VNum (Fin q))
  | EStr s => Some (VStr s)
  | ELt a b =>
      match eval calc r a, eval calc r b with
      | Some (VNum x), Some (VNum y) => Some (VBool (flt x y))
      | _, _ => None
      end
  | ECond c a b =>
      match eval calc r c with
      | Some (VBool true) => eval calc r a
      | Some (VBool false) => eval calc r b
      | _ => None
      end
  end.

(** The fields the calculate transforms of a view add to a record. *)
Fixpoint calculated (ts : list transform) (calc : list (string * value))
    (r : DownloadRecord) : list (string * value) :=
  match ts with
  | [] => calc
  | transform_calculate f e :: ts' =>
      match eval calc r e with
      | Some v => calculated ts' ((f, v) :: calc) r
      | None => calculated ts' calc r
      end
  | transform_filter _ :: ts' => calculated ts' calc r
  end.

(** The colour a view gives the mark of a record when its colour channel has
    no scale: the value of the channel's field, taken as a colour name. *)
Definition mark_color (v : view) (r : DownloadRecord) : option string :=
  match List.find (λ e, String.eqb e.1 "color") (encoding v) with
  | Some (_, c) =>
      match scale_of c with
      | scale_none =>
          match datum_field (calculated (transforms v) [] r) r (field c) with
          | Some (VStr s) => Some s
          | _ => None
          end
      | _ => None
      end
  | None => None
  end.

End Chart.
Import Chart.

(** ** The page script *)

(** What the user has entered in the widgets of the page. The choice in the
    multi-select depends on the options and the default it is given. *)
Record session := {
  date_input_value : DATE;
  selectbox_value : string;
  multiselect_value : list string → list string → list string;
  checkbox_value : bool
}.

(** The elements a run puts on the page. *)
Inductive element :=
| columns (n : Z)
| date_input (label : string) (value : DATE)
| selectbox (label : string) (options : list string)
| header (body : string)
| altair_chart (c : chart) (use_container_width : bool)
| multiselect (label : string) (options default : list string) (help : string)
| checkbox (label : string).

(** A run either goes on with a value or has been stopped by [st.stop()];
    either way it has a page. *)
Inductive outcome (A : Type) :=
| Done (a : A)
| Stopped.
Arguments Done {A} a.
Arguments Stopped {A}.

Definition script (A : Type) : Type := list element → outcome A * list element.

#[global] Instance script_ret : MRet script := λ A a page, (Done a, page).

#[global] Instance script_bind : MBind script := λ A B f m page,
  match m page with
  | (Done a, page') => f a page'
  | (Stopped, page') => (Stopped, page')
  end.

Definition put (e : element) : script unit := λ page, (Done tt, (page ++ [e])%list).

Module st.

Definition columns (n : Z) : script unit := put (columns n).

Definition date_input (ui : session) (label : string) (value : DATE)
  : script DATE :=
  put (date_input label value);; mret (date_input_value ui).

Definition selectbox (ui : session) (label : string) (options : list string)
  : script string :=
  put (selectbox label options);; mret (selectbox_value ui).

Definition header (body : string) : script unit := put (header body).

Definition altair_chart (c : chart) (use_container_width : bool)
  : script unit :=
  put (altair_chart c use_container_width).

Definition multiselect (ui : session) (label : string)
    (options default : list string) (help : string) : script (list string) :=
  put (multiselect label options default help);;
  mret (multiselect_value ui options default).

Definition checkbox (ui : session) (label : string) : script bool :=
  put (checkbox label);; mret (checkbox_value ui).

Definition stop {A} : script A := λ page, (Stopped, page).

End st.

Definition tooltip_delta : channel :=
  {| field := "delta"; type := None; scale_of := scale_default;
     format := Some ".2%" |}.

Definition plot_all_downloads (ui : session) (source : list DownloadRecord)
  : script chart :=
  let x := "date" in
  let group := "project" in
  log ← st.checkbox ui "View logarithmic scale";
  let axis_scale := if log : bool then "log" else "linear" in
  let brush := selection_interval ["x"] "all" in
  let click := selection_multi ["color"] in
  let lines :=
    add_transform (transform_filter click)
      (properties_width 550
        (add_selection brush
          (encode "tooltip"
             [shorthand "date"; shorthand "project"; shorthand "downloads";
              tooltip_delta]
            (encode "color" [shorthand group]
              (encode "y"
                 [{| field := "downloads"; type := None;
                     scale_of := scale_type axis_scale; format := None |}]
                (encode "x" [shorthand x]
                  (with_mark (mark_line point_true) (Chart source)))))))) in
  let bars :=
    add_selection click
      (properties_width 550
        (add_transform (transform_filter brush)
          (encode "tooltip"
             [shorthand "date"; shorthand "downloads"; tooltip_delta]
            (encode "x"
               [{| field := "downloads"; type := Some "Q";
                   scale_of := scale_type axis_scale; format := None |}]
              (encode "color" [shorthand group]
                (encode "y" [shorthand group]
                  (with_mark mark_bar (Chart source)))))))) in
  mret (VConcat [lines; bars]).

(** The calculate expression [datum.delta < 0 ? "red" : "green"]. *)
Definition color_expr : expr :=
  ECond (ELt (EDatum "delta") (ENum 0)) (EStr "red") (EStr "green").

Definition streamlit_lines (source : list DownloadRecord) : view :=
  add_transform (transform_calculate "color" color_expr)
    (encode "y" [shorthand "downloads"]
      (encode "x" [shorthand "date"]
        (with_mark (mark_line point_transparent) (Chart source)))).

Definition streamlit_points (source : list DownloadRecord) : view :=
  let hover := selection_single ["date"] true "mouseover" "none" in
  encode "color"
    [{| field := "color"; type := Some "N"; scale_of := scale_none;
        format := None |}]
    (with_mark (mark_circle 65)
      (add_transform (transform_filter hover) (streamlit_lines source))).

Definition streamlit_tooltips (source : list DownloadRecord) : view :=
  let hover := selection_single ["date"] true "mouseover" "none" in
  add_selection hover
    (encode "tooltip" [shorthand "date"; shorthand "downloads"; tooltip_delta]
      (encode "y" [shorthand "downloads"]
        (encode "x" [shorthand "date"]
          (with_mark (mark_rule 0) (Chart source))))).

Definition plot_streamlit_downloads (source : list DownloadRecord) : chart :=
  let lines := streamlit_lines source in
  let points := streamlit_points source in
  let tooltips := streamlit_tooltips source in
  Layer [lines; points; tooltips] true.

(** [series.drop_duplicates()]: the first occurrence of each value stays. *)
Fixpoint drop_duplicates_from (seen : list string) (l : list string)
  : list string :=
  match l with
  | [] => []
  | x :: l' =>
      if decide (x ∈ seen) then drop_duplicates_from seen l'
      else x :: drop_duplicates_from (x :: seen) l'
  end.

Definition drop_duplicates (l : list string) : list string :=
  drop_duplicates_from [] l.

(** [df[df["project"] == name]] *)
Definition project_eq (name : string) (df : list DownloadRecord)
  : list DownloadRecord :=
  filter (λ r : DownloadRecord, project r = name) df.

(** [df[df["project"].isin(names)]] *)
Definition project_isin (names : list string) (df : list DownloadRecord)
  : list DownloadRecord :=
  filter (λ r : DownloadRecord, project r ∈ names) df.

(** The help text of the multi-select, its three lines in one. *)
Definition instructions : string :=
  "Click and drag line chart to select and pan date interval. Hover over bar chart to view downloads. Click on a bar to highlight that package".

Definition default_packages : list string :=
  ["streamlit"; "dash"; "panel"; "voila"].

Definition main (tbl : list Row) (ui : session) : script unit :=
  st.columns 2;;
  start_date ← st.date_input ui "Select start date" (days_from_civil 2020 1 1);
  time_frame ← st.selectbox ui "Select weekly or monthly downloads"
                 ["weekly"; "monthly"];
  let df_monthly := monthly_downloads tbl start_date in
  let df_weekly := weekly_downloads tbl start_date in
  let streamlit_data_monthly := project_eq "streamlit" df_monthly in
  let streamlit_data_weekly := project_eq "streamlit" df_weekly in
  let package_names := drop_duplicates ((λ r : DownloadRecord, project r) <$> df_monthly) in
  let '(selected_data_streamlit, selected_data_all) :=
    if String.eqb time_frame "weekly"
    then (streamlit_data_weekly, df_weekly)
    else (streamlit_data_monthly, df_monthly) in
  st.header "Streamlit downloads";;
  st.altair_chart (plot_streamlit_downloads selected_data_streamlit) true;;
  st.header "Compare other package downloads";;
  select_packages ← st.multiselect ui "Select Python packages to compare"
                      package_names default_packages instructions;
  let select_packages_df := select_packages in
  match select_packages with
  | [] => st.stop
  | _ :: _ =>
      let filtered_df := project_isin select_packages_df selected_data_all in
      c ← plot_all_downloads ui filtered_df;
      st.altair_chart c true
  end.


(** ** What a run of the page shows

    The values [main] computes on its way, named for the statements below. *)

Definition selected_granularity (ui : session) : granularity :=
  if String.eqb (selectbox_value ui) "weekly" then WEEK else MONTH.

Definition package_names (tbl : list Row) (ui : session) : list string :=
  drop_duplicates ((λ r : DownloadRecord, project r)
                     <$> monthly_downloads tbl (date_input_value ui)).

Definition select_packages (tbl : list Row) (ui : session) : list string :=
  multiselect_value ui (package_names tbl ui) default_packages.

Definition selected_data_all (tbl : list Row) (ui : session)
  : list DownloadRecord :=
  Aggregator (selected_granularity ui) tbl (date_input_value ui).

Definition selected_data_streamlit (tbl : list Row) (ui : session)
  : list DownloadRecord :=
  project_eq "streamlit" (selected_data_all tbl ui).

Definition filtered_df (tbl : list Row) (ui : session) : list DownloadRecord :=
  project_isin (select_packages tbl ui) (selected_data_all tbl ui).

(** The page up to and including the multi-select. *)
Definition page_head (tbl : list Row) (ui : session) : list element :=
  [ columns 2;
    date_input "Select start date" (days_from_civil 2020 1 1);
    selectbox "Select weekly or monthly downloads" ["weekly"; "monthly"];
    header "Streamlit downloads";
    altair_chart (plot_streamlit_downloads (selected_data_streamlit tbl ui)) true;
    header "Compare other package downloads";
    multiselect "Select Python packages to compare" (package_names tbl ui)
      default_packages instructions ].

(** The layered (single-series) and the concatenated (multi-series) charts
    on a page. *)
Definition is_layer (e : element) : option chart :=
  match e with
  | altair_chart (Layer vs i) _ => Some (Layer vs i)
  | _ => None
  end.


Definition layer_charts (page : list element) : list chart :=
  omap is_layer page.



(** The view of a layered chart that draws the highlighted point. *)
Definition highlighted_points (c : chart) : option view :=
  match c with
  | Layer vs _ =>
      List.find (λ v, match mark_of v with
                      | Some (mark_circle _) => true
                      | _ => false
                      end) vs
  | VConcat _ => None
  end.


(** ** Rows that reach the output *)

#[global] Instance Row_eq_dec : EqDecision Row.
Proof. solve_decision. Defined.

(** The rows of the table that WHERE keeps: dated at or after the start date
    and not of the denylisted project. *)
Definition passes (start_date : DATE) (r : Row) : Prop :=
  start_date ≤ date r ∧ project r ≠ "shiny".

#[global] Instance passes_dec start_date r : Decision (passes start_date r).
Proof. unfold passes. apply _. Defined.

(** The kept rows that fall into the bucket [d] of project [p]. *)
Definition in_group (g : granularity) (start_date d : DATE) (p : string)
    (r : Row) : Prop :=
  passes start_date r ∧ date_trunc (date r) g = d ∧ project r = p.

#[global] Instance in_group_dec g start_date d p r :
  Decision (in_group g start_date d p r).
Proof. unfold in_group. apply _. Defined.

(** The kept rows with their date cut to the bucket: what GROUP BY sees. *)
Definition selected_rows (q : statement) (tbl : list Row) : list Row :=
  select_key q <$> List.filter (where_clause q) tbl.

(** ** Views, selections and data of the charts on a page *)

Definition views (c : chart) : list view :=
  match c with
  | Layer vs _ => vs
  | VConcat vs => vs
  end.

(** The selections a view filters its data on. *)
Definition filtered_on (v : view) : list selection :=
  omap (λ t, match t with
             | transform_filter s => Some s
             | transform_calculate _ _ => None
             end) (transforms v).

(** The channel of a view under a name, if it has one. *)
Definition channel_of (name : string) (v : view) : option channel :=
  snd <$> List.find (λ e, String.eqb e.1 name) (encoding v).

Definition page_charts (page : list element) : list chart :=
  omap (λ e, match e with altair_chart c _ => Some c | _ => None end) page.

(** All the records that the charts of a page are given. *)
Definition page_records (page : list element) : list DownloadRecord :=
  concat (data <$> concat (views <$> page_charts page)).


(** ** Sample tables *)

Definition mkrow (y m d : Z) (p : string) (n : Z) : Row :=
  {| date := days_from_civil y m d; project := p; downloads := n |}.

(** The rows of the scenario: 100 downloads of A in 2021-01, 150 in 2021-02. *)
Definition tbl_scenario : list Row :=
  [mkrow 2021 1 1 "A" 100; mkrow 2021 2 1 "A" 150].

(** A project with no downloads in two months running. *)
Definition tbl_idle : list Row :=
  [mkrow 2021 1 10 "A" 0; mkrow 2021 2 10 "A" 0].


(** Several projects, days of one month in any order, and the denylisted one. *)
Definition tbl_mixed : list Row :=
  [mkrow 2021 2 3 "streamlit" 150; mkrow 2021 1 5 "streamlit" 60;
   mkrow 2021 1 5 "shiny" 60; mkrow 2021 1 7 "dash" 3;
   mkrow 2021 2 7 "dash" 7; mkrow 2021 1 20 "streamlit" 40].

(** 2021-08-01 is the first day of a month and a Sunday. *)
Definition tbl_aligned : list Row :=
  [mkrow 2021 8 1 "streamlit" 10; mkrow 2021 8 1 "dash" 4].

Definition since_2020 : DATE := days_from_civil 2020 1 1.

(** A user who looks at weeks and keeps the first package offered. *)
Definition ui_first : session :=
  {| date_input_value := since_2020;
     selectbox_value := "weekly";
     multiselect_value := λ options _, take 1 options;
     checkbox_value := false |}.


(** * Properties *)

(** ** The calendar on known dates *)

Example civil_2021_01_01 : days_from_civil 2021 1 1 = 18628.
Proof. reflexivity. Qed.
Example trunc_month_ex :
  civil_from_days (date_trunc (days_from_civil 2024 2 29) MONTH) = (2024, 2, 1).
Proof. reflexivity. Qed.
Example trunc_week_ex :
  civil_from_days (date_trunc (days_from_civil 2021 1 6) WEEK) = (2021, 1, 3).
Proof. reflexivity. Qed.
Example trunc_week_ex2 :
  civil_from_days (date_trunc (days_from_civil 2021 1 2) WEEK) = (2020, 12, 27).
Proof. reflexivity. Qed.
Example trunc_week_sunday :
  civil_from_days (date_trunc (days_from_civil 2021 1 3) WEEK) = (2021, 1, 3).
Proof. reflexivity. Qed.

(** ** The order of ORDER BY *)

Lemma string_compare_OT s1 s2 : String.compare s1 s2 = String_as_OT.compare s1 s2.
Proof.
  reflexivity.
Qed.

Lemma string_compare_lt_trans s1 s2 s3 :
  String.compare s1 s2 = Lt → String.compare s2 s3 = Lt → String.compare s1 s3 = Lt.
Proof.
  rewrite !string_compare_OT. intros H12 H23.
  exact (StrictOrder_Transitive (R := String_as_OT.lt) s1 s2 s3 H12 H23).
Qed.

#[global] Instance string_le_trans : Transitive string_le.
Proof.
  intros s1 s2 s3. unfold string_le, String.leb.
  destruct (String.compare s1 s2) eqn:H12; try discriminate; intros _.
  - apply String.compare_eq_iff in H12. by subst.
  - destruct (String.compare s2 s3) eqn:H23; try discriminate; intros _.
    + apply String.compare_eq_iff in H23. subst. by rewrite H12.
    + by rewrite (string_compare_lt_trans _ _ _ H12 H23).
Qed.

#[global] Instance string_le_total : Total string_le.
Proof. intros s1 s2. apply String.leb_total. Qed.

#[global] Instance row_le_trans : Transitive row_le.
Proof.
  intros r1 r2 r3 [H12|[E12 S12]] [H23|[E23 S23]]; unfold row_le.
  - left. lia.
  - left. lia.
  - left. lia.
  - right. split; [congruence | by transitivity (project r2)].
Qed.

#[global] Instance row_le_total : Total row_le.
Proof.
  intros r1 r2. unfold row_le.
  destruct (Z.lt_trichotomy (date r1) (date r2)) as [H|[H|H]]; [by left; left | | by right; left].
  destruct (total string_le (project r1) (project r2)); [left | right]; right; done.
Qed.

(** ** The result of the SQL statement *)

Lemma group_by_sum_lookup_is_Some rows k :
  is_Some (group_by_sum rows !! k) ↔ k ∈ key <$> rows.
Proof.
  induction rows as [|r rows IH]; simpl.
  - rewrite lookup_empty. split; [by intros [? ?] | by intros ?%elem_of_nil].
  - rewrite elem_of_cons, <- IH. destruct (decide (key r = k)) as [->|Hne].
    + rewrite lookup_insert_eq. split; [by left | by eauto].
    + rewrite lookup_insert_ne by done. split; [by right | intros [?|?]; congruence].
Qed.

(** The entry of a group is the sum over the rows that have its key. *)
Lemma group_by_sum_default rows k :
  default 0 (group_by_sum rows !! k) =
  sum_downloads (filter (λ r, key r = k) rows).
Proof.
  induction rows as [|r rows IH]; simpl; [by rewrite lookup_empty|].
  rewrite filter_cons. destruct (decide (key r = k)) as [<-|Hne].
  - rewrite lookup_insert_eq. simpl. by rewrite IH.
  - by rewrite lookup_insert_ne.
Qed.

Lemma group_by_sum_lookup rows k :
  k ∈ key <$> rows →
  group_by_sum rows !! k = Some (sum_downloads (filter (λ r, key r = k) rows)).
Proof.
  intros [v Hv]%group_by_sum_lookup_is_Some.
  rewrite <- group_by_sum_default, Hv. done.
Qed.

Lemma key_group_rows m : key <$> group_rows m = (map_to_list m).*1.
Proof.
  unfold group_rows. rewrite <- list_fmap_compose.
  apply list_fmap_ext. by intros _ [[d p] v] _.
Qed.

Lemma elem_of_key_group_rows rows k :
  k ∈ key <$> group_rows (group_by_sum rows) ↔ k ∈ key <$> rows.
Proof.
  rewrite key_group_rows, <- group_by_sum_lookup_is_Some.
  rewrite list_elem_of_fmap. split.
  - intros [[k' v] [-> Hin]]. apply elem_of_map_to_list in Hin. by eexists.
  - intros [v Hv]. exists (k, v). split; [done | by apply elem_of_map_to_list].
Qed.

Lemma order_by_Permutation rows : order_by rows ≡ₚ rows.
Proof. apply merge_sort_Permutation. Qed.

Lemma run_statement_sorted q tbl : StronglySorted row_le (run_statement q tbl).
Proof. apply (StronglySorted_merge_sort row_le). Qed.

Lemma run_statement_NoDup q tbl : NoDup (key <$> run_statement q tbl).
Proof.
  unfold run_statement. rewrite order_by_Permutation, key_group_rows.
  apply NoDup_fst_map_to_list.
Qed.

(** A row of the result comes from a row of the table that passes WHERE. *)
Lemma run_statement_elem_of q tbl r :
  r ∈ run_statement q tbl →
  ∃ r0, r0 ∈ tbl ∧ where_clause q r0 = true ∧ project r0 = project r
        ∧ date r = date_trunc (date r0) (trunc_to q).
Proof.
  unfold run_statement. rewrite order_by_Permutation. intros Hr.
  assert (key r ∈ key <$> group_rows (group_by_sum
            (select_key q <$> List.filter (where_clause q) tbl))) as Hk
    by (by apply list_elem_of_fmap_2).
  apply (proj1 (elem_of_key_group_rows _ _)) in Hk.
  apply (proj1 (list_elem_of_fmap _ _ _)) in Hk as [r1 [Hk Hr1]].
  apply (proj1 (list_elem_of_fmap _ _ _)) in Hr1 as [r0 [-> Hr0]].
  apply (proj1 (list_elem_of_In _ _)), filter_In in Hr0 as [Hin Hw].
  exists r0. apply list_elem_of_In in Hin.
  unfold key, select_key in Hk; simpl in Hk. by inversion Hk.
Qed.

(** Every project that passes WHERE has a row in the result, at either
    granularity. *)
Lemma run_statement_project q tbl r0 :
  r0 ∈ tbl → where_clause q r0 = true →
  ∃ r, r ∈ run_statement q tbl ∧ project r = project r0.
Proof.
  intros Hin Hw.
  assert (key (select_key q r0) ∈ key <$> run_statement q tbl) as Hk.
  { unfold run_statement. rewrite order_by_Permutation.
    apply (proj2 (elem_of_key_group_rows _ _)), list_elem_of_fmap_2, list_elem_of_fmap_2.
    apply (proj2 (list_elem_of_In _ _)), filter_In. split; [by apply list_elem_of_In | done]. }
  apply (proj1 (list_elem_of_fmap _ _ _)) in Hk as [r [Hk Hr]].
  exists r. split; [done|]. unfold key in Hk. simpl in Hk. by inversion Hk.
Qed.


(** ** The delta column *)

Lemma length_groupby_shift last df : length (groupby_shift last df) = length df.
Proof. revert last. induction df as [|r df IH]; intros last; simpl; [done | by rewrite IH]. Qed.

Lemma row_assign_delta df col :
  length col = length df → row <$> assign_delta df col = df.
Proof.
  revert col. induction df as [|r df IH]; intros [|c col] Hlen; simpl in *; try done.
  f_equal. apply IH. lia.
Qed.

(** Grouping by project and then computing the column is computing it on
    each series on its own. *)
Lemma series_assign_delta last df p :
  series p (assign_delta df
    (fillna 0 <$> zip_with (λ r prev, fsub (truediv (downloads r) prev) 1) df
       (groupby_shift last df))) =
  zip_with Build_DownloadRecord (filter (λ r : Row, project r = p) df)
    (series_delta (last !! p)
       (downloads <$> filter (λ r : Row, project r = p) df)).
Proof.
  unfold series, assign_delta. revert last.
  induction df as [|r df IH]; intros last; simpl; [done|].
  rewrite !filter_cons. simpl. destruct (decide (project r = p)) as [<-|Hne].
  - simpl. f_equal. rewrite IH. by rewrite lookup_insert_eq.
  - rewrite IH. by rewrite lookup_insert_ne.
Qed.

Lemma series_delta_lookup_0 prev ds d :
  ds !! 0%nat = Some d →
  series_delta prev ds !! 0%nat = Some (fillna 0 (fsub (truediv d prev) 1)).
Proof. destruct ds; simpl; [done | by intros [= ->]]. Qed.

Lemma series_delta_lookup_S prev ds t d0 d1 :
  ds !! t = Some d0 → ds !! S t = Some d1 →
  series_delta prev ds !! S t = Some (fillna 0 (pct_formula d1 d0)).
Proof.
  revert prev t. induction ds as [|d ds IH]; intros prev t H0 H1; [done|].
  destruct t as [|t]; simpl in *.
  - injection H0 as ->. destruct ds as [|d' ds]; simpl in *; [done|].
    by injection H1 as ->.
  - by apply IH.
Qed.

Lemma lookup_zip_record df col t r :
  zip_with Build_DownloadRecord df col !! t = Some r →
  df !! t = Some (row r) ∧ col !! t = Some (delta r).
Proof.
  intros H. apply lookup_zip_with_Some in H as (x & y & -> & Hx & Hy). done.
Qed.

(** Every row of a data frame is at some place in the series of its
    project. *)
Lemma elem_of_series (df : list DownloadRecord) (r : DownloadRecord) :
  r ∈ df → ∃ t, series (project r) df !! t = Some r.
Proof.
  intros Hin. apply list_elem_of_lookup. unfold series.
  apply list_elem_of_filter. done.
Qed.

Lemma series_elem_of p (df : list DownloadRecord) t (r : DownloadRecord) :
  series p df !! t = Some r → r ∈ df ∧ project r = p.
Proof.
  intros H. apply list_elem_of_lookup_2 in H. unfold series in H.
  by apply list_elem_of_filter in H as [? ?].
Qed.

(** ** The formula *)

Lemma pct_formula_nonzero cur prev :
  prev ≠ 0 →
  ∃ q, pct_formula cur prev = Fin q
       ∧ (q == inject_Z cur / inject_Z prev - 1)%Q.
Proof.
  intros Hne. unfold pct_formula, truediv.
  apply Z.eqb_neq in Hne. rewrite Hne. simpl.
  eexists. split; [reflexivity|]. by rewrite !Qred_correct.
Qed.

Lemma pct_formula_zero_pos cur : 0 < cur → pct_formula cur 0 = PInf.
Proof.
  intros H. unfold pct_formula, truediv. simpl.
  apply Z.ltb_lt in H. by rewrite H.
Qed.

Lemma pct_formula_zero_neg cur : cur < 0 → pct_formula cur 0 = NInf.
Proof.
  intros H. unfold pct_formula, truediv. simpl.
  assert ((0 <? cur) = false) as -> by (apply Z.ltb_ge; lia).
  apply Z.ltb_lt in H. by rewrite H.
Qed.



(** ** The output of the Aggregator *)

Section Output.

Variables (g : granularity) (tbl : list Row) (start_date : DATE).

Local Abbreviation out := (Aggregator g tbl start_date).
Local Abbreviation result := (run_statement (sql_of g start_date) tbl).

Lemma Aggregator_unfold :
  out = assign_delta result (fillna 0 <$> groupby_pct_change result).
Proof. by destruct g. Qed.

Lemma Aggregator_rows : row <$> out = result.
Proof.
  rewrite Aggregator_unfold. apply row_assign_delta.
  unfold groupby_pct_change.
  by rewrite length_fmap, length_zip_with, length_groupby_shift, Nat.min_id.
Qed.

Lemma series_Aggregator p :
  series p out =
  zip_with Build_DownloadRecord (filter (λ r : Row, project r = p) result)
    (series_delta None
       (downloads <$> filter (λ r : Row, project r = p) result)).
Proof.
  rewrite Aggregator_unfold. unfold groupby_pct_change.
  by rewrite series_assign_delta, lookup_empty.
Qed.

(** The first row of a series has delta 0. *)
Lemma series_first_delta p (r : DownloadRecord) :
  series p out !! 0%nat = Some r → delta r = Fin 0.
Proof.
  rewrite series_Aggregator. intros H.
  apply lookup_zip_record in H as [Hrow Hdelta].
  erewrite series_delta_lookup_0 in Hdelta
    by (rewrite list_lookup_fmap, Hrow; reflexivity).
  by injection Hdelta as <-.
Qed.

(** A later row has the delta of the formula on its downloads and those of
    the row before it in the series, with NaN replaced by 0. *)
Lemma series_next_delta p t (r0 r1 : DownloadRecord) :
  series p out !! t = Some r0 →
  series p out !! S t = Some r1 →
  delta r1 = fillna 0 (pct_formula (downloads r1) (downloads r0)).
Proof.
  rewrite series_Aggregator. intros H0 H1.
  apply lookup_zip_record in H0 as [Hrow0 _].
  apply lookup_zip_record in H1 as [Hrow1 Hdelta].
  erewrite series_delta_lookup_S in Hdelta;
    [| rewrite list_lookup_fmap, Hrow0; reflexivity
     | rewrite list_lookup_fmap, Hrow1; reflexivity].
  by injection Hdelta as <-.
Qed.

(** Every row is the first of its series or has a row before it there. *)
Lemma delta_cases (r : DownloadRecord) :
  r ∈ out →
  delta r = Fin 0 ∨
  ∃ r0 : DownloadRecord,
    r0 ∈ out ∧ delta r = fillna 0 (pct_formula (downloads r) (downloads r0)).
Proof.
  intros Hr. apply elem_of_series in Hr as [[|t] Ht].
  - left. by apply (series_first_delta _ _ Ht).
  - right.
    destruct (lookup_lt_is_Some_2 (series (project r) out) t) as [r0 H0];
      [apply lookup_lt_Some in Ht; lia|].
    exists r0. split; [by apply series_elem_of in H0 as [? _]|].
    by apply (series_next_delta _ _ _ _ H0 Ht).
Qed.

(** No delta of the output is NaN, whatever the downloads. *)
Lemma Aggregator_delta_not_nan (r : DownloadRecord) :
  r ∈ out → delta r ≠ NaN.
Proof.
  intros [->|(r0 & _ & ->)]%delta_cases; [done|].
  by destruct (pct_formula _ _).
Qed.

(** C1 (as the code has it). In every project series of the Aggregator's
    output, a row after the first whose predecessor in the series has
    downloads other than 0 has delta = downloads[t]/downloads[t-1] - 1. After
    a predecessor with 0 downloads the delta is +inf for positive downloads,
    -inf for negative ones, and 0 (the NaN of 0/0, filled) for 0 downloads.
    The rows (2021-01, A, 100), (2021-02, A, 150) give the deltas [0, 0.5]. *)
Theorem C1_delta_after_first p t (r0 r1 : DownloadRecord) :
  series p out !! t = Some r0 →
  series p out !! S t = Some r1 →
  (downloads r0 ≠ 0 →
     delta r1 = pct_formula (downloads r1) (downloads r0) ∧
     ∃ q, delta r1 = Fin q ∧
          (q == inject_Z (downloads r1) / inject_Z (downloads r0) - 1)%Q) ∧
  (downloads r0 = 0 → 0 < downloads r1 → delta r1 = PInf) ∧
  (downloads r0 = 0 → downloads r1 < 0 → delta r1 = NInf) ∧
  (downloads r0 = 0 → downloads r1 = 0 → delta r1 = Fin 0) ∧
  (∀ g', delta <$> Aggregator g' tbl_scenario since_2020 = [Fin 0; Fin (1 # 2)]).
Proof.
  intros H0 H1. pose proof (series_next_delta _ _ _ _ H0 H1) as Hd.
  repeat split.
  - destruct (pct_formula_nonzero (downloads r1) _ H) as (q & Hq & _).
    rewrite Hd, Hq. done.
  - destruct (pct_formula_nonzero (downloads r1) _ H) as (q & Hq & Heq).
    exists q. rewrite Hd, Hq. done.
  - intros Hz Hpos. by rewrite Hd, Hz, pct_formula_zero_pos.
  - intros Hz Hneg. by rewrite Hd, Hz, pct_formula_zero_neg.
  - intros Hz Hz1. by rewrite Hd, Hz, Hz1.
  - intros []; vm_compute; reflexivity.
Qed.

(** C2. In every non-empty project series of the Aggregator's output the
    first row has delta 0. *)
Theorem C2_first_delta_zero p (r : DownloadRecord) :
  series p out !! 0%nat = Some r → delta r = Fin 0.
Proof. apply series_first_delta. Qed.

(** C3. At every start date and at both granularities no row of the
    Aggregator's output has the project name shiny. *)
Theorem C3_denylist_excluded :
  Forall (λ r : DownloadRecord, project r ≠ "shiny") out.
Proof.
  apply Forall_forall. intros r Hr.
  assert (row r ∈ result) as Hrow
    by (rewrite <- Aggregator_rows; by apply list_elem_of_fmap_2).
  apply run_statement_elem_of in Hrow as (r0 & _ & Hw & Hp & _).
  intros Hs. rewrite <- Hp in Hs.
  unfold where_clause in Hw. apply andb_true_iff in Hw as [_ Hw].
  destruct g; simpl in Hw; rewrite Hs in Hw; discriminate.
Qed.

(** C4. The rows of the Aggregator's output are in ascending order of
    bucket and then of project name, and no (bucket, project) pair occurs
    twice. *)
Theorem C4_sorted_unique :
  StronglySorted row_le (row <$> out) ∧
  NoDup ((λ r : DownloadRecord, (date r, project r)) <$> out).
Proof.
  split.
  - rewrite Aggregator_rows. apply run_statement_sorted.
  - replace ((λ r : DownloadRecord, (date r, project r)) <$> out)
      with (key <$> (row <$> out)) by (by rewrite <- list_fmap_compose).
    rewrite Aggregator_rows. apply run_statement_NoDup.
Qed.


End Output.

Lemma C1_delta_after_first_witness :
  ∃ r1 : DownloadRecord,
    series "A" (Aggregator MONTH tbl_scenario since_2020) !! 1%nat = Some r1 ∧
    downloads r1 = 150 ∧ delta r1 = Fin (1 # 2).
Proof.
  eexists. split; [vm_compute; reflexivity|]. split; [reflexivity|].
  refine (proj1 (proj1 (C1_delta_after_first MONTH tbl_scenario since_2020 "A" 0%nat
    {| row := mkrow 2021 1 1 "A" 100; delta := Fin 0 |}
    {| row := mkrow 2021 2 1 "A" 150; delta := Fin (1 # 2) |} _ _) _)).
  - vm_compute; reflexivity.
  - vm_compute; reflexivity.
  - simpl. lia.
Defined.

(** C1 as stated fails where a project has 0 downloads in two buckets
    running: the formula gives NaN there, the delta column holds 0. *)
Lemma C1_counterexample :
  ∃ r0 r1 : DownloadRecord,
    series "A" (Aggregator MONTH tbl_idle since_2020) !! 0%nat = Some r0 ∧
    series "A" (Aggregator MONTH tbl_idle since_2020) !! 1%nat = Some r1 ∧
    downloads r0 = 0 ∧ downloads r1 = 0 ∧
    pct_formula (downloads r1) (downloads r0) = NaN ∧
    delta r1 = Fin 0 ∧
    delta r1 ≠ pct_formula (downloads r1) (downloads r0).
Proof.
  exists {| row := mkrow 2021 1 1 "A" 0; delta := Fin 0 |},
         {| row := mkrow 2021 2 1 "A" 0; delta := Fin 0 |}.
  repeat split; try (vm_compute; reflexivity). simpl. discriminate.
Qed.

Lemma C2_first_delta_zero_witness :
  ∃ r : DownloadRecord,
    series "dash" (Aggregator WEEK tbl_mixed since_2020) !! 0%nat = Some r ∧
    downloads r = 3 ∧ delta r = Fin 0.
Proof.
  exists {| row := mkrow 2021 1 3 "dash" 3; delta := Fin 0 |}.
  split; [vm_compute; reflexivity|]. split; [reflexivity|].
  apply (C2_first_delta_zero WEEK tbl_mixed since_2020 "dash").
  vm_compute; reflexivity.
Defined.



(** Both statements keep the same rows of the table, so the monthly and the
    weekly output have the same projects. *)
Lemma Aggregator_projects g1 g2 tbl start_date p :
  p ∈ (λ r : DownloadRecord, project r) <$> Aggregator g1 tbl start_date →
  p ∈ (λ r : DownloadRecord, project r) <$> Aggregator g2 tbl start_date.
Proof.
  intros Hp. apply (proj1 (list_elem_of_fmap _ _ _)) in Hp as (r & -> & Hr).
  assert (row r ∈ run_statement (sql_of g1 start_date) tbl) as Hrow.
  { rewrite <- Aggregator_rows. by apply list_elem_of_fmap_2. }
  apply run_statement_elem_of in Hrow as (r0 & Hin & Hw & Hproj & _).
  assert (where_clause (sql_of g2 start_date) r0 = true) as Hw2
    by (by destruct g1, g2).
  destruct (run_statement_project _ _ _ Hin Hw2) as (r2 & Hr2 & Hproj2).
  rewrite <- Aggregator_rows in Hr2.
  apply (proj1 (list_elem_of_fmap _ _ _)) in Hr2 as (r' & -> & Hr').
  rewrite <- Hproj, <- Hproj2.
  by apply (list_elem_of_fmap_2 (λ r : DownloadRecord, project r)).
Qed.

(** C8. The monthly and the weekly Aggregator make the delta column in the
    same way: on equal query results they return equal data frames, and
    their statements differ in the granularity of the bucket only. *)
Theorem C8_same_post_processing tbl1 start1 tbl2 start2 :
  get_data_frame_from_raw_sql tbl1 (monthly_sql start1) =
  get_data_frame_from_raw_sql tbl2 (weekly_sql start2) →
  monthly_downloads tbl1 start1 = weekly_downloads tbl2 start2 ∧
  (∀ start_date,
     trunc_to (monthly_sql start_date) = MONTH ∧
     trunc_to (weekly_sql start_date) = WEEK ∧
     where_date_ge (monthly_sql start_date) = where_date_ge (weekly_sql start_date) ∧
     where_project_not_in (monthly_sql start_date) =
       where_project_not_in (weekly_sql start_date)).
Proof.
  intros Heq. split; [|done].
  unfold monthly_downloads, weekly_downloads. by rewrite Heq.
Qed.

Lemma C8_same_post_processing_witness :
  monthly_downloads tbl_aligned since_2020 = weekly_downloads tbl_aligned since_2020.
Proof.
  apply (C8_same_post_processing tbl_aligned since_2020 tbl_aligned since_2020).
  vm_compute; reflexivity.
Defined.

(** ** The single-series chart *)

Lemma streamlit_points_color source (r : DownloadRecord) :
  mark_color (streamlit_points source) r =
  Some (if flt (delta r) (Fin 0) then "red" else "green").
Proof.
  unfold mark_color, streamlit_points, streamlit_lines. cbn.
  unfold datum_field, column. cbn. by destruct (flt (delta r) (Fin 0)).
Qed.

Lemma flt_fle_zero f : f ≠ NaN → flt f (Fin 0) = negb (fle (Fin 0) f).
Proof.
  destruct f as [q| | |]; try done. intros _. simpl.
  rewrite <- (Qcompare_antisym q 0). by destruct (q ?= 0)%Q.
Qed.

(** C6. In the chart of the single-series Chart Builder the highlighted
    point of a record whose delta is a number is green exactly when
    delta >= 0 and red otherwise; a record with delta 0 is green. *)
Theorem C6_point_color source (r : DownloadRecord) :
  delta r ≠ NaN →
  ∃ v, highlighted_points (plot_streamlit_downloads source) = Some v ∧
       (mark_color v r = Some "green" ↔ fle (Fin 0) (delta r) = true) ∧
       (mark_color v r = Some "red" ↔ fle (Fin 0) (delta r) = false) ∧
       (delta r = Fin 0 → mark_color v r = Some "green").
Proof.
  intros Hnan. exists (streamlit_points source). split; [reflexivity|].
  rewrite streamlit_points_color, (flt_fle_zero _ Hnan).
  destruct (fle (Fin 0) (delta r)) eqn:Hle; simpl.
  - repeat split; try done.
  - repeat split; try done. intros Hz. rewrite Hz in Hle. done.
Qed.

Lemma C6_point_color_witness :
  let r := {| row := mkrow 2021 1 1 "streamlit" 100; delta := Fin 0 |} in
  ∃ v, highlighted_points (plot_streamlit_downloads [r]) = Some v ∧
       mark_color v r = Some "green".
Proof.
  intros r.
  destruct (C6_point_color [r] r) as (v & Hv & _ & _ & Hgreen); [discriminate|].
  exists v. split; [exact Hv | by apply Hgreen].
Defined.

(** ** A run of the page *)

Lemma elem_of_drop_duplicates_from seen l x :
  x ∈ drop_duplicates_from seen l ↔ x ∈ l ∧ x ∉ seen.
Proof.
  revert seen. induction l as [|y l IH]; intros seen; simpl.
  - split; [by intros ?%elem_of_nil | by intros [?%elem_of_nil _]].
  - destruct (decide (y ∈ seen)) as [Hin|Hnot].
    + rewrite IH, elem_of_cons. split.
      * intros [? ?]. split; [by right | done].
      * intros [[->|?] ?]; [done | by split].
    + rewrite !elem_of_cons, IH, not_elem_of_cons. split.
      * intros [->|[? [? ?]]]; [by split; [left|] | by split; [right|]].
      * intros [[->|?] ?]; [by left|].
        destruct (decide (x = y)) as [->|Hne]; [by left | by right].
Qed.

Lemma elem_of_drop_duplicates l x : x ∈ drop_duplicates l ↔ x ∈ l.
Proof.
  unfold drop_duplicates. rewrite elem_of_drop_duplicates_from.
  split; [by intros [? _] | intros ?; split; [done | apply not_elem_of_nil]].
Qed.

Lemma plot_all_downloads_run ui source page :
  ∃ vs, plot_all_downloads ui source page
          = (Done (VConcat vs), (page ++ [checkbox "View logarithmic scale"])%list)
        ∧ data <$> vs = [source; source].
Proof. eexists. split; reflexivity. Qed.


Section Page.

Variables (tbl : list Row) (ui : session).

Lemma main_run :
  main tbl ui [] =
  match select_packages tbl ui with
  | [] => (Stopped, page_head tbl ui)
  | _ :: _ =>
      match plot_all_downloads ui (filtered_df tbl ui) (page_head tbl ui) with
      | (Done c, page) => (Done tt, (page ++ [altair_chart c true])%list)
      | (Stopped, page) => (Stopped, page)
      end
  end.
Proof.
  unfold main, page_head, filtered_df, select_packages, selected_data_streamlit,
    selected_data_all, package_names, selected_granularity.
  unfold mbind, script_bind, st.columns, st.date_input, st.selectbox, st.header,
    st.altair_chart, st.multiselect, st.stop, put, mret, script_ret, mbind,
    script_bind.
  cbn [app].
  destruct (String.eqb (selectbox_value ui) "weekly"); cbn [Aggregator app];
    destruct (multiselect_value ui _ _); reflexivity.
Qed.

Lemma main_run_stop :
  select_packages tbl ui = [] → main tbl ui [] = (Stopped, page_head tbl ui).
Proof. intros H. by rewrite main_run, H. Qed.

Lemma main_run_chart :
  select_packages tbl ui ≠ [] →
  ∃ vs, plot_all_downloads ui (filtered_df tbl ui) (page_head tbl ui)
          = (Done (VConcat vs),
             (page_head tbl ui ++ [checkbox "View logarithmic scale"])%list)
        ∧ data <$> vs = [filtered_df tbl ui; filtered_df tbl ui]
        ∧ main tbl ui [] =
            (Done tt,
             (page_head tbl ui ++
                [checkbox "View logarithmic scale";
                 altair_chart (VConcat vs) true])%list).
Proof.
  intros Hne. rewrite main_run.
  destruct (plot_all_downloads_run ui (filtered_df tbl ui) (page_head tbl ui))
    as (vs & Hrun & Hdata).
  exists vs. split; [done|]. split; [done|].
  destruct (select_packages tbl ui); [done|].
  rewrite Hrun. by rewrite <- app_assoc.
Qed.


(** C9. The one single-series chart of the page is built from the output
    of the Aggregator at the chosen granularity, reduced to the rows whose
    project is streamlit: all its rows have that project name. *)
Theorem C9_single_series_source :
  let source :=
    project_eq "streamlit"
      (Aggregator (selected_granularity ui) tbl (date_input_value ui)) in
  layer_charts (main tbl ui []).2 = [plot_streamlit_downloads source] ∧
  Forall (λ r : DownloadRecord, project r = "streamlit") source.
Proof.
  intros source. split.
  - destruct (select_packages tbl ui) as [|x l] eqn:Hsel.
    + by rewrite (main_run_stop Hsel).
    + destruct main_run_chart as (vs & _ & _ & ->); [by rewrite Hsel|].
      reflexivity.
  - apply Forall_forall. intros r Hr. unfold source, project_eq in Hr.
    by apply list_elem_of_filter in Hr as [? _].
Qed.


End Page.



(** * Further properties of the code *)

(** ** What the SQL statement keeps, groups and sums *)

Lemma where_clause_passes g start_date r :
  where_clause (sql_of g start_date) r = true ↔ passes start_date r.
Proof.
  unfold where_clause, passes.
  rewrite andb_true_iff, Z.leb_le, negb_true_iff.
  destruct g; simpl; rewrite orb_false_r;
    (split; intros [? Hp]; (split; [done|]));
    [ by apply String.eqb_neq | by apply String.eqb_neq
    | by apply String.eqb_neq | by apply String.eqb_neq ].
Qed.

Lemma sum_downloads_app l1 l2 :
  sum_downloads (l1 ++ l2) = sum_downloads l1 + sum_downloads l2.
Proof.
  unfold sum_downloads. induction l1 as [|r l1 IH]; simpl; [done | rewrite IH; lia].
Qed.

Lemma sum_downloads_Permutation l1 l2 :
  l1 ≡ₚ l2 → sum_downloads l1 = sum_downloads l2.
Proof. unfold sum_downloads. induction 1; simpl; lia. Qed.

Lemma elem_of_group_rows m r :
  r ∈ group_rows m ↔ m !! key r = Some (downloads r).
Proof.
  unfold group_rows. rewrite list_elem_of_fmap. split.
  - intros ([[d p] v] & -> & Hin). by apply elem_of_map_to_list in Hin.
  - intros Hm. exists (key r, downloads r).
    split; [by destruct r | by apply elem_of_map_to_list].
Qed.

(** A row is in the result exactly when some kept row has its key and its
    downloads are the sum over the kept rows with that key. *)
Lemma elem_of_run_statement q tbl r :
  r ∈ run_statement q tbl ↔
  key r ∈ key <$> selected_rows q tbl ∧
  downloads r = sum_downloads (filter (λ x, key x = key r) (selected_rows q tbl)).
Proof.
  unfold run_statement. fold (selected_rows q tbl).
  rewrite order_by_Permutation, elem_of_group_rows. split.
  - intros Hm.
    assert (key r ∈ key <$> selected_rows q tbl) as Hk
      by (apply group_by_sum_lookup_is_Some; by eexists).
    split; [done|]. rewrite (group_by_sum_lookup _ _ Hk) in Hm. by injection Hm.
  - intros [Hk ->]. by apply group_by_sum_lookup.
Qed.

Lemma selected_rows_filter g start_date tbl d p :
  filter (λ x, key x = (d, p)) (selected_rows (sql_of g start_date) tbl) =
  select_key (sql_of g start_date) <$> filter (in_group g start_date d p) tbl.
Proof.
  unfold selected_rows. induction tbl as [|r tbl IH]; [done|].
  rewrite filter_cons. cbn [List.filter].
  destruct (where_clause (sql_of g start_date) r) eqn:Hw.
  - apply (proj1 (where_clause_passes _ _ _)) in Hw. rewrite fmap_cons, filter_cons, IH.
    assert (trunc_to (sql_of g start_date) = g) as Hg by (by destruct g).
    destruct (decide (in_group g start_date d p r)) as [(_ & Hd & Hp)|Hn].
    + rewrite decide_True; [done|]. unfold key, select_key. simpl.
      by rewrite Hg, Hd, Hp.
    + rewrite decide_False; [done|]. intros Hk. apply Hn.
      unfold key, select_key in Hk. simpl in Hk. rewrite Hg in Hk.
      injection Hk as ? ?. done.
  - rewrite IH. rewrite decide_False; [done|].
    intros (Hpass & _). apply (proj2 (where_clause_passes g _ _)) in Hpass. congruence.
Qed.

Lemma sum_downloads_select_key q rows :
  sum_downloads (select_key q <$> rows) = sum_downloads rows.
Proof.
  unfold sum_downloads. induction rows as [|r rows IH]; [done|].
  rewrite fmap_cons. cbn [foldr select_key downloads]. by rewrite IH.
Qed.

Lemma elem_of_selected_rows g start_date tbl d p :
  (d, p) ∈ key <$> selected_rows (sql_of g start_date) tbl ↔
  ∃ r0, r0 ∈ tbl ∧ in_group g start_date d p r0.
Proof.
  unfold selected_rows. rewrite <- list_fmap_compose, list_elem_of_fmap.
  assert (trunc_to (sql_of g start_date) = g) as Hg by (by destruct g).
  split.
  - intros (r0 & Hk & Hin). exists r0.
    apply list_elem_of_In, filter_In in Hin as [Hin Hw].
    apply list_elem_of_In in Hin. apply (proj1 (where_clause_passes _ _ _)) in Hw.
    split; [done|]. unfold key, select_key in Hk. simpl in Hk.
    rewrite Hg in Hk. injection Hk as -> ->. done.
  - intros (r0 & Hin & Hpass & Hd & Hp). exists r0. split.
    + unfold key, select_key. simpl. by rewrite Hg, Hd, Hp.
    + apply list_elem_of_In, filter_In. split; [by apply list_elem_of_In|].
      by apply where_clause_passes.
Qed.

(** Membership in the output of the Aggregator, in terms of the table. *)
Lemma elem_of_Aggregator_row g tbl start_date (r : Row) :
  r ∈ row <$> Aggregator g tbl start_date ↔
  (∃ r0, r0 ∈ tbl ∧ in_group g start_date (date r) (project r) r0) ∧
  downloads r =
    sum_downloads (filter (in_group g start_date (date r) (project r)) tbl).
Proof.
  rewrite Aggregator_rows, elem_of_run_statement.
  change (key r) with (date r, project r).
  by rewrite elem_of_selected_rows, selected_rows_filter, sum_downloads_select_key.
Qed.

(** X1. Every row of the output stands for rows of the table: some row of
    the table dated at or after the start date, of the same project, which
    is not shiny, falls into its bucket, and its downloads are the sum of
    the downloads of all such rows. *)
Theorem Aggregator_row_source g tbl start_date :
  Forall (λ r : DownloadRecord,
            (∃ r0, r0 ∈ tbl ∧ start_date ≤ date r0 ∧ project r0 = project r
                   ∧ project r ≠ "shiny" ∧ date r = date_trunc (date r0) g) ∧
            downloads r =
              sum_downloads
                (filter (in_group g start_date (date r) (project r)) tbl))
    (Aggregator g tbl start_date).
Proof.
  apply Forall_forall. intros r Hr.
  assert (row r ∈ row <$> Aggregator g tbl start_date) as Hrow
    by (by apply list_elem_of_fmap_2).
  apply elem_of_Aggregator_row in Hrow as [(r0 & Hin & (Hd & Hs) & Ht & Hp) Hsum].
  split; [|done]. exists r0. rewrite <- Hp. done.
Qed.

(** X2. No kept row is lost: a row of the table dated at or after the start
    date whose project is not shiny has exactly one row in the output with
    its bucket and its project. *)
Theorem Aggregator_complete g tbl start_date r0 :
  r0 ∈ tbl → start_date ≤ date r0 → project r0 ≠ "shiny" →
  ∃ r : DownloadRecord,
    r ∈ Aggregator g tbl start_date ∧
    date r = date_trunc (date r0) g ∧ project r = project r0 ∧
    ∀ r' : DownloadRecord,
      r' ∈ Aggregator g tbl start_date →
      date r' = date r → project r' = project r → row r' = row r.
Proof.
  intros Hin Hd Hp.
  set (d := date_trunc (date r0) g). set (p := project r0).
  set (n := sum_downloads (filter (in_group g start_date d p) tbl)).
  assert ({| date := d; project := p; downloads := n |}
            ∈ row <$> Aggregator g tbl start_date) as Hrow.
  { apply elem_of_Aggregator_row. simpl. split; [|done].
    exists r0. by repeat split. }
  apply (proj1 (list_elem_of_fmap _ _ _)) in Hrow as (r & Hr & Hin').
  exists r. rewrite <- Hr. simpl. repeat split; try done.
  intros r' Hr' Hd' Hp'.
  assert (row r' ∈ row <$> Aggregator g tbl start_date) as Hrow'
    by (by apply list_elem_of_fmap_2).
  apply elem_of_Aggregator_row in Hrow' as [_ Hsum].
  destruct r' as [[d' p' n'] f']. simpl in *. by subst.
Qed.

Lemma Aggregator_complete_witness :
  ∃ r : DownloadRecord,
    r ∈ Aggregator MONTH tbl_mixed since_2020 ∧
    date r = days_from_civil 2021 1 1 ∧ project r = "streamlit".
Proof.
  destruct (Aggregator_complete MONTH tbl_mixed since_2020
              (mkrow 2021 1 20 "streamlit" 40)) as (r & Hr & Hd & Hp & _).
  - apply (bool_decide_unpack _). vm_compute. exact I.
  - vm_compute. discriminate.
  - discriminate.
  - exists r. split; [exact Hr|]. split; [exact Hd | exact Hp].
Defined.

Lemma filter_where_passes g start_date tbl :
  List.filter (where_clause (sql_of g start_date)) tbl
  = filter (passes start_date) tbl.
Proof.
  induction tbl as [|r tbl IH]; [done|].
  rewrite filter_cons. cbn [List.filter]. rewrite IH.
  destruct (where_clause (sql_of g start_date) r) eqn:Hw.
  - rewrite decide_True; [done|]. by apply (where_clause_passes g).
  - rewrite decide_False; [done|]. intros Hp.
    apply (proj2 (where_clause_passes g _ _)) in Hp. congruence.
Qed.

Lemma selected_rows_passes g start_date tbl :
  selected_rows (sql_of g start_date) tbl
  = select_key (sql_of g start_date) <$> filter (passes start_date) tbl.
Proof. unfold selected_rows. by rewrite filter_where_passes. Qed.

(** X3. The output is empty exactly when no row of the table is kept: each
    is dated before the start date or is of project shiny. A start date
    after all the data gives an empty data frame, not an error. *)
Theorem Aggregator_empty_iff g tbl start_date :
  Aggregator g tbl start_date = [] ↔
  Forall (λ r0 : Row, date r0 < start_date ∨ project r0 = "shiny") tbl.
Proof.
  split.
  - intros Hnil. apply Forall_forall. intros r0 Hin.
    destruct (decide (passes start_date r0)) as [Hp|Hn].
    + exfalso.
      assert ({| date := date_trunc (date r0) g; project := project r0;
                 downloads := sum_downloads
                   (filter (in_group g start_date (date_trunc (date r0) g)
                              (project r0)) tbl) |}
                ∈ row <$> Aggregator g tbl start_date) as Hrow.
      { apply elem_of_Aggregator_row. simpl. split; [|done].
        exists r0. split; [done|]. split; [exact Hp | by split]. }
      rewrite Hnil in Hrow. by apply elem_of_nil in Hrow.
    + unfold passes in Hn.
      destruct (decide (start_date ≤ date r0)); [|left; lia].
      destruct (decide (project r0 = "shiny")); [by right|]. exfalso. by apply Hn.
  - intros Hall. destruct (Aggregator g tbl start_date) as [|r l] eqn:Hout; [done|].
    exfalso.
    assert (row r ∈ row <$> Aggregator g tbl start_date) as Hrow
      by (rewrite Hout; apply list_elem_of_fmap_2; by left).
    apply elem_of_Aggregator_row in Hrow as [(r0 & Hin & (Hd & Hs) & _) _].
    pose proof (proj1 (Forall_forall _ _) Hall r0 Hin) as [?|?]; [lia | done].
Qed.

Lemma sum_group_rows_insert m k v :
  m !! k = None →
  sum_downloads (group_rows (<[k:=v]> m)) = v + sum_downloads (group_rows m).
Proof.
  intros Hk. unfold group_rows.
  rewrite (sum_downloads_Permutation _ _
             (fmap_Permutation _ _ _ (map_to_list_insert m k v Hk))).
  by rewrite fmap_cons.
Qed.

Lemma sum_group_rows rows :
  sum_downloads (group_rows (group_by_sum rows)) = sum_downloads rows.
Proof.
  induction rows as [|r rows IH];
    [by cbn [group_by_sum]; unfold group_rows; rewrite map_to_list_empty|].
  cbn [group_by_sum]. change (sum_downloads (r :: rows))
    with (downloads r + sum_downloads rows). rewrite <- IH.
  destruct (group_by_sum rows !! key r) as [w|] eqn:Hk; simpl.
  - rewrite <- insert_delete_eq, sum_group_rows_insert by apply lookup_delete_eq.
    rewrite <- (insert_delete_id (group_by_sum rows) (key r) w Hk) at 2.
    rewrite sum_group_rows_insert by apply lookup_delete_eq. lia.
  - rewrite sum_group_rows_insert by done. lia.
Qed.

Lemma Aggregator_total g tbl start_date :
  sum_downloads (row <$> Aggregator g tbl start_date)
  = sum_downloads (filter (passes start_date) tbl).
Proof.
  rewrite Aggregator_rows. unfold run_statement. fold (selected_rows (sql_of g start_date) tbl).
  rewrite (sum_downloads_Permutation _ _ (order_by_Permutation _)).
  by rewrite sum_group_rows, selected_rows_passes, sum_downloads_select_key.
Qed.

(** X4. Grouping loses and adds no download: the downloads column of the
    output adds up to the downloads of the kept rows of the table, so the
    monthly and the weekly output have the same total. *)
Theorem Aggregator_total_downloads tbl start_date :
  (∀ g, sum_downloads (row <$> Aggregator g tbl start_date)
        = sum_downloads (filter (passes start_date) tbl)) ∧
  sum_downloads (row <$> monthly_downloads tbl start_date)
  = sum_downloads (row <$> weekly_downloads tbl start_date).
Proof.
  split; [intros g; apply Aggregator_total|].
  by rewrite (Aggregator_total MONTH), (Aggregator_total WEEK).
Qed.

Lemma selected_rows_Permutation q tbl tbl' :
  tbl ≡ₚ tbl' → selected_rows q tbl ≡ₚ selected_rows q tbl'.
Proof.
  unfold selected_rows. induction 1 as [|r l l' _ IH|r1 r2 l|l1 l2 l3 _ IH1 _ IH2].
  - done.
  - cbn [List.filter]. destruct (where_clause q r); [|done].
    rewrite !fmap_cons. by constructor.
  - cbn [List.filter].
    destruct (where_clause q r1), (where_clause q r2); rewrite ?fmap_cons;
      try done. apply perm_swap.
  - by etransitivity.
Qed.

Lemma group_by_sum_Permutation rows rows' :
  rows ≡ₚ rows' → group_by_sum rows = group_by_sum rows'.
Proof.
  intros Hperm. apply map_eq. intros k.
  destruct (decide (k ∈ key <$> rows)) as [Hk|Hk].
  - rewrite (group_by_sum_lookup _ _ Hk).
    rewrite Hperm in Hk. rewrite (group_by_sum_lookup _ _ Hk).
    f_equal. apply sum_downloads_Permutation. by rewrite Hperm.
  - assert (group_by_sum rows !! k = None) as ->.
    { apply eq_None_not_Some. by rewrite group_by_sum_lookup_is_Some. }
    rewrite Hperm in Hk. symmetry.
    apply eq_None_not_Some. by rewrite group_by_sum_lookup_is_Some.
Qed.

Lemma Aggregator_result_eq g tbl tbl' start_date :
  run_statement (sql_of g start_date) tbl = run_statement (sql_of g start_date) tbl' →
  Aggregator g tbl start_date = Aggregator g tbl' start_date.
Proof. intros H. by rewrite !Aggregator_unfold, H. Qed.

(** X5. The output does not depend on the order of the rows in the table. *)
Theorem Aggregator_Permutation g tbl tbl' start_date :
  tbl ≡ₚ tbl' → Aggregator g tbl start_date = Aggregator g tbl' start_date.
Proof.
  intros Hperm. apply Aggregator_result_eq. unfold run_statement.
  fold (selected_rows (sql_of g start_date) tbl).
  fold (selected_rows (sql_of g start_date) tbl').
  by rewrite (group_by_sum_Permutation _ _ (selected_rows_Permutation _ _ _ Hperm)).
Qed.

Lemma Aggregator_Permutation_witness :
  Aggregator WEEK tbl_mixed since_2020 = Aggregator WEEK (reverse tbl_mixed) since_2020.
Proof.
  apply (Aggregator_Permutation WEEK tbl_mixed (reverse tbl_mixed) since_2020).
  symmetry. apply reverse_Permutation.
Defined.

(** X6. Rows dated before the start date and rows of project shiny have no
    influence: adding them to the table leaves the output as it is. *)
Theorem Aggregator_ignores_rejected g tbl more start_date :
  Forall (λ r0 : Row, date r0 < start_date ∨ project r0 = "shiny") more →
  Aggregator g (tbl ++ more) start_date = Aggregator g tbl start_date.
Proof.
  intros Hall. apply Aggregator_result_eq. unfold run_statement.
  do 2 f_equal. rewrite !filter_where_passes, filter_app.
  assert (filter (passes start_date) more = []) as ->; [|by rewrite app_nil_r].
  induction Hall as [|r0 more Hr0 _ IH]; [done|].
  rewrite filter_cons, decide_False; [done|].
  intros [Hd Hp]. destruct Hr0; [lia | done].
Qed.

Lemma Aggregator_ignores_rejected_witness :
  Aggregator MONTH
    (tbl_scenario ++ [mkrow 2019 12 31 "A" 9; mkrow 2021 1 5 "shiny" 60])
    since_2020
  = Aggregator MONTH tbl_scenario since_2020.
Proof.
  apply (Aggregator_ignores_rejected MONTH tbl_scenario
           [mkrow 2019 12 31 "A" 9; mkrow 2021 1 5 "shiny" 60] since_2020).
  constructor; [left; vm_compute; reflexivity|].
  constructor; [right; reflexivity | constructor].
Defined.

(** X7. The monthly and the weekly output name the same projects. *)
Theorem Aggregator_same_projects tbl start_date p :
  p ∈ (λ r : DownloadRecord, project r) <$> monthly_downloads tbl start_date ↔
  p ∈ (λ r : DownloadRecord, project r) <$> weekly_downloads tbl start_date.
Proof.
  split.
  - apply (Aggregator_projects MONTH WEEK).
  - apply (Aggregator_projects WEEK MONTH).
Qed.

(** X8. The delta column never holds NaN, whatever the table holds: the
    NaN of a first bucket and the NaN of 0/0 are both filled with 0. *)
Theorem Aggregator_no_nan g tbl start_date :
  Forall (λ r : DownloadRecord, delta r ≠ NaN) (Aggregator g tbl start_date).
Proof. apply Forall_forall. intros r. apply Aggregator_delta_not_nan. Qed.

Lemma size_group_by_sum rows : (size (group_by_sum rows) ≤ length rows)%nat.
Proof.
  induction rows as [|r rows IH]; simpl; [by rewrite map_size_empty|].
  rewrite map_size_insert. destruct (group_by_sum rows !! key r); unfold id; simpl; lia.
Qed.

(** X9. The output has at most as many rows as the table has kept rows. *)
Theorem Aggregator_length g tbl start_date :
  (length (Aggregator g tbl start_date)
     ≤ length (filter (passes start_date) tbl))%nat ∧
  (length (filter (passes start_date) tbl) ≤ length tbl)%nat.
Proof.
  split; [|apply length_filter].
  rewrite <- (length_fmap row), Aggregator_rows. unfold run_statement.
  fold (selected_rows (sql_of g start_date) tbl).
  rewrite (Permutation_length (order_by_Permutation _)).
  unfold group_rows. rewrite length_fmap, length_map_to_list.
  etransitivity; [apply size_group_by_sum|].
  by rewrite selected_rows_passes, length_fmap.
Qed.

(** ** The sign of the delta *)







(** ** Grouping by project *)

Lemma StronglySorted_filter {A} (R : relation A) (P : A → Prop)
    `{!∀ x, Decision (P x)} (l : list A) :
  StronglySorted R l → StronglySorted R (filter P l).
Proof.
  induction 1 as [|x l Hl IH Hx]; [constructor|].
  rewrite filter_cons. destruct (decide (P x)); [|done].
  constructor; [done|]. apply Forall_forall. intros y Hy.
  apply list_elem_of_filter in Hy as [_ Hy].
  by apply (proj1 (Forall_forall _ _) Hx).
Qed.

Lemma filter_all {A} (P : A → Prop) `{!∀ x, Decision (P x)} (l : list A) :
  Forall P l → filter P l = l.
Proof.
  induction 1 as [|x l Hx _ IH]; [done|].
  by rewrite filter_cons, decide_True, IH.
Qed.

Lemma row_le_antisym_key r1 r2 : row_le r1 r2 → row_le r2 r1 → key r1 = key r2.
Proof.
  intros [H12|[E12 S12]] [H21|[E21 S21]]; try lia.
  unfold key. f_equal; [done|]. by apply String.leb_antisym.
Qed.

Lemma elem_of_result g tbl start_date (r : Row) :
  r ∈ run_statement (sql_of g start_date) tbl ↔
  (∃ r0, r0 ∈ tbl ∧ in_group g start_date (date r) (project r) r0) ∧
  downloads r =
    sum_downloads (filter (in_group g start_date (date r) (project r)) tbl).
Proof. rewrite <- Aggregator_rows. apply elem_of_Aggregator_row. Qed.

Lemma NoDup_result g tbl start_date : NoDup (run_statement (sql_of g start_date) tbl).
Proof. apply (NoDup_fmap_1 key), run_statement_NoDup. Qed.

(** The statement on the rows of one project gives the rows of that project
    in the result of the statement on the whole table. *)
Lemma run_statement_filter_project g tbl start_date p :
  filter (λ r : Row, project r = p) (run_statement (sql_of g start_date) tbl)
  = run_statement (sql_of g start_date) (filter (λ r : Row, project r = p) tbl).
Proof.
  assert (∀ r : Row,
            r ∈ filter (λ r : Row, project r = p)
                  (run_statement (sql_of g start_date) tbl) ↔
            r ∈ run_statement (sql_of g start_date)
                  (filter (λ r : Row, project r = p) tbl)) as Hmem.
  { intros r. rewrite list_elem_of_filter, !elem_of_result. split.
    - intros (Hp & (r0 & Hin & Hg) & Hsum). rewrite Hp in *.
      rewrite list_filter_filter_l by (by intros x (_ & _ & ?)).
      split; [|done]. exists r0. split; [|done].
      apply list_elem_of_filter. split; [|done]. by destruct Hg as (_ & _ & ?).
    - intros ((r0 & Hin & Hg) & Hsum).
      apply list_elem_of_filter in Hin as [Hp Hin].
      assert (project r = p) as Hrp by (destruct Hg as (_ & _ & <-); done).
      rewrite Hrp in *.
      rewrite list_filter_filter_l in Hsum by (by intros x (_ & _ & ?)).
      split; [done|]. split; [|done]. by exists r0. }
  apply (StronglySorted_unique_strong row_le).
  - intros x1 x2 Hx1 Hx2 H12 H21. apply Hmem in Hx1.
    pose proof (row_le_antisym_key _ _ H12 H21) as Hk.
    pose proof (run_statement_NoDup (sql_of g start_date)
                  (filter (λ r : Row, project r = p) tbl)) as Hnd.
    apply list_elem_of_lookup in Hx1 as [i Hi].
    apply list_elem_of_lookup in Hx2 as [j Hj].
    assert (i = j) as ->; [|congruence].
    apply (NoDup_lookup _ i j (key x1) Hnd);
      rewrite list_lookup_fmap; [by rewrite Hi | by rewrite Hj, Hk].
  - apply StronglySorted_filter, run_statement_sorted.
  - apply run_statement_sorted.
  - apply NoDup_Permutation; [apply NoDup_filter, NoDup_result | apply NoDup_result | done].
Qed.

Lemma Aggregator_project_rows g tbl start_date p :
  Forall (λ r : Row, project r = p)
    (run_statement (sql_of g start_date) (filter (λ r : Row, project r = p) tbl)).
Proof.
  rewrite <- run_statement_filter_project. apply Forall_forall. intros r Hr.
  by apply list_elem_of_filter in Hr as [? _].
Qed.

(** X12. The delta of a project does not depend on the other projects: the
    series of a project in the output is the output of the Aggregator on the
    rows of that project alone. Filtering by project before or after the
    aggregation gives the same data frame. *)
Theorem series_alone g tbl start_date p :
  series p (Aggregator g tbl start_date)
  = Aggregator g (filter (λ r : Row, project r = p) tbl) start_date.
Proof.
  rewrite series_Aggregator, run_statement_filter_project.
  set (tbl_p := filter (λ r : Row, project r = p) tbl).
  assert (series p (Aggregator g tbl_p start_date) = Aggregator g tbl_p start_date)
    as <-.
  { apply filter_all. apply Forall_forall. intros r Hr.
    assert (row r ∈ row <$> Aggregator g tbl_p start_date) as Hrow
      by (by apply list_elem_of_fmap_2).
    rewrite Aggregator_rows in Hrow.
    by apply (proj1 (Forall_forall _ _) (Aggregator_project_rows g tbl start_date p)). }
  rewrite series_Aggregator.
  by rewrite (filter_all _ _ (Aggregator_project_rows g tbl start_date p)).
Qed.

(** ** Weekly buckets *)

Lemma trunc_week_bounds z :
  weekday (date_trunc z WEEK) = 0 ∧ z - 6 ≤ date_trunc z WEEK ≤ z.
Proof. unfold weekday, date_trunc, weekday. Z.div_mod_to_equations. lia. Qed.

(** X13. Every row of the weekly output is dated on a Sunday: the Sunday
    on or before the table rows it sums, all of which fall into the seven
    days from it. The first bucket can thus begin up to six days before
    the start date. *)
Theorem weekly_bucket tbl start_date :
  Forall (λ r : DownloadRecord,
            weekday (date r) = 0 ∧ start_date - 6 ≤ date r ∧
            Forall (λ r0 : Row, date r ≤ date r0 ≤ date r + 6)
              (filter (in_group WEEK start_date (date r) (project r)) tbl))
    (weekly_downloads tbl start_date).
Proof.
  apply Forall_forall. intros r Hr.
  assert (row r ∈ row <$> Aggregator WEEK tbl start_date) as Hrow
    by (by apply list_elem_of_fmap_2).
  apply elem_of_Aggregator_row in Hrow as [(r0 & Hin & (Hd & Hs) & Ht & Hp) _].
  pose proof (trunc_week_bounds (date r0)) as (Hw & Hlo & Hhi).
  rewrite Ht in Hw, Hlo, Hhi. repeat split; [done | lia |].
  apply Forall_forall. intros r1 Hr1.
  apply list_elem_of_filter in Hr1 as [(_ & Ht1 & _) _].
  pose proof (trunc_week_bounds (date r1)) as (_ & Hlo1 & Hhi1).
  rewrite Ht1 in Hlo1, Hhi1. lia.
Qed.

(** ** The charts *)

(** X14. The highlighted point always has a colour, red or green: red
    exactly when delta < 0 holds, so a delta that is NaN or +inf is drawn
    green and one that is -inf red. The line and the tooltip layer of the
    chart have no colour channel. *)
Theorem point_color_total source (r : DownloadRecord) :
  (mark_color (streamlit_points source) r = Some "red"
   ∨ mark_color (streamlit_points source) r = Some "green") ∧
  (mark_color (streamlit_points source) r = Some "red"
   ↔ flt (delta r) (Fin 0) = true) ∧
  mark_color (streamlit_points source)
    {| row := row r; delta := NaN |} = Some "green" ∧
  mark_color (streamlit_points source)
    {| row := row r; delta := PInf |} = Some "green" ∧
  mark_color (streamlit_points source)
    {| row := row r; delta := NInf |} = Some "red" ∧
  mark_color (streamlit_lines source) r = None ∧
  mark_color (streamlit_tooltips source) r = None.
Proof.
  rewrite !streamlit_points_color. simpl.
  split; [destruct (flt _ _); [by left | by right]|].
  split; [destruct (flt _ _); by split|]. repeat split.
Qed.


(** X16. The chart builder for several projects puts one element on the
    page, the scale checkbox, and is never stopped. Its two views are drawn
    from the source unchanged; the downloads axis of both is logarithmic
    when the box is ticked and linear otherwise. *)
Theorem plot_all_downloads_scale ui source page :
  ∃ lines bars,
    plot_all_downloads ui source page =
      (Done (VConcat [lines; bars]),
       (page ++ [checkbox "View logarithmic scale"])%list) ∧
    data lines = source ∧ data bars = source ∧
    mark_of lines = Some (mark_line point_true) ∧ mark_of bars = Some mark_bar ∧
    scale_of <$> channel_of "y" lines =
      Some (scale_type (if checkbox_value ui then "log" else "linear")) ∧
    scale_of <$> channel_of "x" bars =
      Some (scale_type (if checkbox_value ui then "log" else "linear")) ∧
    field <$> channel_of "y" lines = Some "downloads" ∧
    field <$> channel_of "x" bars = Some "downloads".
Proof. do 2 eexists. split; [reflexivity|]. repeat split. Qed.

(** X17. The two views of that chart are linked crosswise: the interval
    brushed on the lines is defined there and filters the bars, the bars
    clicked are defined on the bars and filter the lines. Both views colour
    by project. *)
Theorem plot_all_downloads_linked ui source page :
  let brush := selection_interval ["x"] "all" in
  let click := selection_multi ["color"] in
  ∃ lines bars,
    (plot_all_downloads ui source page).1 = Done (VConcat [lines; bars]) ∧
    selections lines = [brush] ∧ filtered_on lines = [click] ∧
    selections bars = [click] ∧ filtered_on bars = [brush] ∧
    brush ≠ click ∧
    field <$> channel_of "color" lines = Some "project" ∧
    field <$> channel_of "color" bars = Some "project".
Proof.
  intros brush click. do 2 eexists. split; [reflexivity|].
  repeat split. discriminate.
Qed.

(** ** More on a run of the page *)

Lemma Aggregator_not_shiny g tbl start_date (r : DownloadRecord) :
  r ∈ Aggregator g tbl start_date → project r ≠ "shiny".
Proof.
  intros Hr.
  assert (row r ∈ row <$> Aggregator g tbl start_date) as Hrow
    by (by apply list_elem_of_fmap_2).
  apply elem_of_Aggregator_row in Hrow as [(r0 & _ & (_ & Hs) & _ & Hp) _].
  by rewrite <- Hp.
Qed.


Lemma page_records_head tbl ui :
  page_records (page_head tbl ui) =
  (selected_data_streamlit tbl ui ++ selected_data_streamlit tbl ui
     ++ selected_data_streamlit tbl ui)%list.
Proof. unfold page_records. simpl. by rewrite app_nil_r. Qed.

(** The records on the page of a run, by the selection. *)
Lemma page_records_main tbl ui :
  page_records (main tbl ui []).2 =
  match select_packages tbl ui with
  | [] => (selected_data_streamlit tbl ui ++ selected_data_streamlit tbl ui
             ++ selected_data_streamlit tbl ui)%list
  | _ :: _ =>
      (selected_data_streamlit tbl ui ++ selected_data_streamlit tbl ui
         ++ selected_data_streamlit tbl ui
         ++ filtered_df tbl ui ++ filtered_df tbl ui)%list
  end.
Proof.
  destruct (select_packages tbl ui) as [|x l] eqn:Hsel.
  - rewrite (main_run_stop _ _ Hsel). apply page_records_head.
  - destruct (main_run_chart tbl ui) as (vs & _ & Hdata & ->); [by rewrite Hsel|].
    unfold page_records. simpl. rewrite app_nil_r.
    change (list_fmap view (list DownloadRecord) data vs) with (data <$> vs).
    rewrite Hdata. simpl. by rewrite app_nil_r.
Qed.



(** X19. No record of project shiny reaches a chart of the page, whatever
    the user selects, and shiny is not among the options of the
    multi-select. *)
Theorem main_never_shows_shiny tbl ui :
  Forall (λ r : DownloadRecord, project r ≠ "shiny")
    (page_records (main tbl ui []).2) ∧
  "shiny" ∉ package_names tbl ui.
Proof.
  assert (Forall (λ r : DownloadRecord, project r ≠ "shiny")
            (selected_data_streamlit tbl ui)) as Hs.
  { apply Forall_forall. intros r Hr. unfold selected_data_streamlit, project_eq in Hr.
    apply list_elem_of_filter in Hr as [_ Hr]. by apply Aggregator_not_shiny in Hr. }
  assert (Forall (λ r : DownloadRecord, project r ≠ "shiny") (filtered_df tbl ui)) as Hf.
  { apply Forall_forall. intros r Hr. unfold filtered_df, project_isin in Hr.
    apply list_elem_of_filter in Hr as [_ Hr]. by apply Aggregator_not_shiny in Hr. }
  split.
  - rewrite page_records_main.
    destruct (select_packages tbl ui); rewrite ?Forall_app; by repeat split.
  - unfold package_names. rewrite elem_of_drop_duplicates.
    intros (r & Hp & Hr)%list_elem_of_fmap.
    by apply (Aggregator_not_shiny MONTH) in Hr.
Qed.

Lemma NoDup_drop_duplicates_from seen l :
  NoDup (drop_duplicates_from seen l).
Proof.
  revert seen. induction l as [|x l IH]; intros seen; simpl; [constructor|].
  destruct (decide (x ∈ seen)); [done|]. constructor; [|done].
  rewrite elem_of_drop_duplicates_from. intros [_ Hx]. apply Hx. by left.
Qed.

(** X20. The multi-select offers each project once, and offers exactly the
    projects other than shiny that have a row in the table dated at or
    after the start date. *)
Theorem package_names_spec tbl ui :
  NoDup (package_names tbl ui) ∧
  ∀ p, p ∈ package_names tbl ui ↔
       ∃ r0 : Row, r0 ∈ tbl ∧ date_input_value ui ≤ date r0
                   ∧ project r0 = p ∧ p ≠ "shiny".
Proof.
  split; [apply NoDup_drop_duplicates_from|].
  intros p. unfold package_names. rewrite elem_of_drop_duplicates.
  change (monthly_downloads tbl (date_input_value ui))
    with (Aggregator MONTH tbl (date_input_value ui)).
  rewrite (list_fmap_compose row project), list_elem_of_fmap. split.
  - intros (r & -> & Hr).
    apply elem_of_Aggregator_row in Hr as [(r0 & Hin & (Hd & Hs) & _ & Hp) _].
    exists r0. rewrite <- Hp. done.
  - intros (r0 & Hin & Hd & <- & Hs).
    exists {| date := date_trunc (date r0) MONTH; project := project r0;
              downloads := sum_downloads
                (filter (in_group MONTH (date_input_value ui)
                           (date_trunc (date r0) MONTH) (project r0)) tbl) |}.
    split; [done|]. apply elem_of_Aggregator_row. simpl. split; [|done].
    exists r0. by repeat split.
Qed.

(** X21. Selecting projects keeps their series whole: in the data of the
    multi-series chart the series of a selected project is its series in
    the full output, deltas included, and a project that is not selected
    has no row. Selecting streamlit alone gives the data of the
    single-series chart. *)
Theorem filtered_series tbl ui p :
  (p ∈ select_packages tbl ui →
   series p (filtered_df tbl ui) = series p (selected_data_all tbl ui)) ∧
  (p ∉ select_packages tbl ui → series p (filtered_df tbl ui) = []) ∧
  (select_packages tbl ui = ["streamlit"] →
   filtered_df tbl ui = selected_data_streamlit tbl ui).
Proof.
  unfold series, filtered_df, selected_data_streamlit, project_isin, project_eq.
  split; [|split].
  - intros Hp. rewrite list_filter_filter. apply list_filter_iff.
    intros r. split; [by intros [? _] | intros <-; by split].
  - intros Hp. rewrite list_filter_filter.
    induction (selected_data_all tbl ui) as [|r l IH]; [done|].
    rewrite filter_cons, decide_False; [done|]. intros [<- ?]. done.
  - intros ->. apply list_filter_iff. intros r.
    rewrite list_elem_of_singleton. done.
Qed.

Lemma filtered_series_witness :
  series "dash" (filtered_df tbl_mixed ui_first)
    = series "dash" (selected_data_all tbl_mixed ui_first) ∧
  series "streamlit" (filtered_df tbl_mixed ui_first) = [].
Proof.
  destruct (filtered_series tbl_mixed ui_first "dash") as (Hin & _ & _).
  destruct (filtered_series tbl_mixed ui_first "streamlit") as (_ & Hout & _).
  split.
  - apply Hin. apply (bool_decide_unpack _). vm_compute. exact I.
  - apply Hout. apply (bool_decide_unpack _). vm_compute. exact I.
Defined.

(** X22. The Aggregator returns the rows of the query result as they are,
    in their order, each with its delta next to it: assigning the column
    drops, adds and moves no row. *)
Theorem Aggregator_keeps_rows tbl start_date :
  row <$> monthly_downloads tbl start_date
    = get_data_frame_from_raw_sql tbl (monthly_sql start_date) ∧
  row <$> weekly_downloads tbl start_date
    = get_data_frame_from_raw_sql tbl (weekly_sql start_date) ∧
  ∀ g, length (Aggregator g tbl start_date)
       = length (get_data_frame_from_raw_sql tbl (sql_of g start_date)).
Proof.
  split; [apply (Aggregator_rows MONTH)|]. split; [apply (Aggregator_rows WEEK)|].
  intros g. unfold get_data_frame_from_raw_sql.
  by rewrite <- (Aggregator_rows g), length_fmap.
Qed.

Lemma elem_of_Aggregator_project g tbl start_date p :
  p ∈ (λ r : DownloadRecord, project r) <$> Aggregator g tbl start_date ↔
  ∃ r0 : Row, r0 ∈ tbl ∧ passes start_date r0 ∧ project r0 = p.
Proof.
  rewrite (list_fmap_compose row project), list_elem_of_fmap. split.
  - intros (r & -> & Hr).
    apply elem_of_Aggregator_row in Hr as [(r0 & Hin & Hpass & _ & Hp) _].
    by exists r0.
  - intros (r0 & Hin & Hpass & <-).
    exists {| date := date_trunc (date r0) g; project := project r0;
              downloads := sum_downloads
                (filter (in_group g start_date (date_trunc (date r0) g)
                           (project r0)) tbl) |}.
    split; [done|]. apply elem_of_Aggregator_row. simpl. split; [|done].
    exists r0. split; [done|]. split; [exact Hpass | by split].
Qed.

(** X23. A later start date never brings in a project: the projects of the
    output at the later date are among those at the earlier date. *)
Theorem later_start_fewer_projects g tbl start1 start2 p :
  start1 ≤ start2 →
  p ∈ (λ r : DownloadRecord, project r) <$> Aggregator g tbl start2 →
  p ∈ (λ r : DownloadRecord, project r) <$> Aggregator g tbl start1.
Proof.
  intros Hle. rewrite !elem_of_Aggregator_project.
  intros (r0 & Hin & [Hd Hs] & Hp). exists r0. repeat split; [done | lia | done | done].
Qed.

Lemma later_start_fewer_projects_witness :
  "dash" ∈ (λ r : DownloadRecord, project r)
             <$> Aggregator MONTH tbl_mixed since_2020.
Proof.
  apply (later_start_fewer_projects MONTH tbl_mixed since_2020
           (days_from_civil 2021 2 1) "dash").
  - vm_compute. discriminate.
  - apply (bool_decide_unpack _). vm_compute. exact I.
Defined.
